(** * Algorithm I/O contracts of DAAL: tanh forward layer, regression
      training types, multi-class classifier quality metric set

    A shallow embedding of
    - [algorithms/kernel/neural_networks/layers/tanh_layer/forward/tanh_layer_forward_fpt.cpp]
    - [include/algorithms/regression/regression_training_types.h]
    - [include/algorithms/multi_class_classifier/multi_class_classifier_quality_metric_set_types.h]
    together with the properties of these files that are stated and proved
    at the end of each module. *)

From stdpp Require Import base option list numbers gmap strings.

(** * Shared objects

    [services::SharedPtr<T>] is a reference-counted handle.  A handle is
    either null or the address of an object of the store; two handles that
    hold the same address alias the same object. *)
Module services.

Abbreviation addr := nat (only parsing).

(** A null handle converts to [false] in a C++ condition. *)
Definition is_null {A} (p : option A) : bool :=
  match p with Some _ => false | None => true end.

End services.

(** * neural_networks::layers::tanh::forward *)
Module tanh_forward.
Import services.

(** The instantiations of [algorithmFPType] ([DAAL_FPTYPE]). *)
Inductive FPType := fp_float | fp_double.

(** Objects that live behind the handles of a forward layer: tensors,
    which answer [getDimensions()], and [LayerData] key-value
    collections of handles. *)
Inductive object :=
| HomogenTensor (fp : FPType) (dims : list N)
| LayerData (entries : gmap N addr).

(** [layers::forward::InputId]; only [data] occurs in [allocate]. *)
Inductive InputId : Set := data.

(** [layers::forward::ResultId] and [ResultLayerDataId]. *)
Inductive ResultId := value | resultForBackward.

#[global] Instance InputId_eq_dec : EqDecision InputId.
Proof. solve_decision. Defined.
#[global] Instance InputId_countable : Countable InputId.
Proof.
  refine (inj_countable' (λ _, 0%nat) (λ _, data) _). by intros [].
Defined.

#[global] Instance ResultId_eq_dec : EqDecision ResultId.
Proof. solve_decision. Defined.
#[global] Instance ResultId_countable : Countable ResultId.
Proof.
  refine (inj_countable'
            (λ i, match i with value => 0%nat | resultForBackward => 1%nat end)
            (λ n, match n with 0%nat => value | _ => resultForBackward end) _).
  by intros [].
Defined.

(** [layers::forward::Input]: the slot collection of the input.  A slot
    without a binding holds the null handle. *)
Record Input := { in_slots : gmap InputId addr }.

(** [layers::Parameter], of which [allocate] reads [predictionStage]
    ([Parameter] is reserved in Rocq, hence the qualified name). *)
Record layers_Parameter := { predictionStage : bool }.

(** What a member function of [Result] runs on: the store of shared
    objects and the slot collection of [*this]. *)
Record state := { objects : list object; slots : gmap ResultId addr }.

(** Member functions of [Result] thread the state; [None] is a run that
    dereferences a null handle (undefined behaviour in C++). *)
Definition M (A : Type) : Type := state → option (A * state).

#[global] Instance M_ret : MRet M := λ A a st, Some (a, st).

#[global] Instance M_bind : MBind M := λ A B k m st,
  match m st with
  | Some (a, st') => k a st'
  | None => None
  end.

(** Modelled from the spec: the accessors [Result::get(id)] and
    [Result::set(id, ptr)] are declared in the layers headers, outside the
    embedded files.  [get] returns the handle bound to the slot, null when
    the slot is unset. *)
Definition get (id : ResultId) : M (option addr) :=
  λ st, Some (slots st !! id, st).

(** [set] overwrites any previous binding; a null handle clears the slot. *)
Definition set (id : ResultId) (p : option addr) : M unit :=
  λ st, Some (tt, {| objects := objects st;
                     slots := match p with
                              | Some a => <[id := a]> (slots st)
                              | None => delete id (slots st)
                              end |}).

(** [new T(...)] wrapped in a handle: the object gets the next address. *)
Definition new (o : object) : M (option addr) :=
  λ st, Some (Some (length (objects st)),
              {| objects := objects st ++ [o]; slots := slots st |}).

(** [in->get(layers::forward::data)], the same lookup on the input. *)
Definition Input_get (input : Input) (id : InputId) : option addr :=
  in_slots input !! id.

(** [p->getDimensions()]: dereferences [p] and reads the extents of the
    tensor behind it. *)
Definition getDimensions (p : option addr) : M (list N) :=
  λ st, match p with
        | Some a => match objects st !! a with
                    | Some (HomogenTensor _ dims) => Some (dims, st)
                    | _ => None
                    end
        | None => None
        end.

(** Modelled from the spec: the macro [DAAL_ALLOCATE_TENSOR_AND_SET] is
    defined in a layers header outside the embedded files.  Following
    the allocation protocol (materialise a missing slot with backing
    storage of the derived shape, in the element type selected by the
    caller), it creates a tensor of [algorithmFPType] elements with the
    given dimensions and binds it to the slot. *)
Definition DAAL_ALLOCATE_TENSOR_AND_SET
    (algorithmFPType : FPType) (id : ResultId) (dims : list N) : M unit :=
  t ← new (HomogenTensor algorithmFPType dims); set id t.

Section allocate.

(** [Result::setResultForBackward] is a virtual member implemented in
    another translation unit; [allocate] is verified against any
    implementation. *)
Variable setResultForBackward : Input → M unit.

(** [template <typename algorithmFPType>
     void Result::allocate(const Input *input, const Parameter *par, const int method)] *)
Definition allocate (algorithmFPType : FPType)
    (input : Input) (par : layers_Parameter) (method : Z) : M unit :=
  v ← get value;
  (if is_null v
   then dims ← getDimensions (Input_get input data);
        DAAL_ALLOCATE_TENSOR_AND_SET algorithmFPType value dims
   else mret tt);;
  if negb (predictionStage par)
  then b ← get resultForBackward;
       (if is_null b
        then l ← new (LayerData ∅); set resultForBackward l
        else mret tt);;
       setResultForBackward input
  else mret tt.

(** The handle in [resultForBackward] has the static type
    [SharedPtr<LayerData>]: when it is not null, a [LayerData] is behind
    it. *)
Definition layer_data_typed (st : state) : Prop :=
  ∀ a, slots st !! resultForBackward = Some a →
       ∃ e, objects st !! a = Some (LayerData e).

(** What the proofs ask of [setResultForBackward]: it fills the
    [LayerData] object held by the [resultForBackward] slot.  It runs
    when that slot holds a [LayerData]; it rebinds no slot of the result;
    it leaves every other object of the store alone. *)
Hypothesis srb_runs : ∀ input st,
  is_Some (slots st !! resultForBackward) → layer_data_typed st →
  is_Some (setResultForBackward input st).

Hypothesis srb_slots : ∀ input st u st',
  setResultForBackward input st = Some (u, st') → slots st' = slots st.

Hypothesis srb_objects : ∀ input st u st' a,
  setResultForBackward input st = Some (u, st') →
  slots st !! resultForBackward ≠ Some a →
  objects st' !! a = objects st !! a.

(** Input whose [data] slot holds a tensor of the given dimensions. *)
Definition data_dims (st : state) (input : Input) (dims : list N) : Prop :=
  ∃ a fp, Input_get input data = Some a ∧
          objects st !! a = Some (HomogenTensor fp dims).

Ltac run := unfold allocate, DAAL_ALLOCATE_TENSOR_AND_SET, getDimensions,
              new, set, get, mbind, mret, M_bind, M_ret, is_null in *;
            simpl in *.

(** One call never rebinds a slot that is populated on entry. *)
Lemma allocate_keeps_bound_slot fp input par method st u st' id a :
  allocate fp input par method st = Some (u, st') →
  slots st !! id = Some a →
  slots st' !! id = Some a.
Proof using srb_slots.
  intros Hrun Hid. run.
  destruct (slots st !! value) as [v|] eqn:Hv; simpl in Hrun.
  - destruct (predictionStage par); simpl in Hrun.
    + by simplify_eq.
    + destruct (slots st !! resultForBackward) as [b|] eqn:Hb; simpl in Hrun;
        apply srb_slots in Hrun; rewrite Hrun; simpl; [done|].
      rewrite lookup_insert_ne; [done|congruence].
  - destruct (Input_get input data) as [d|]; [|done].
    destruct (objects st !! d) as [[? dims|]|]; try done. simpl in Hrun.
    assert (id ≠ value) by congruence.
    destruct (predictionStage par); simpl in Hrun.
    + simplify_eq. simpl. by rewrite lookup_insert_ne.
    + rewrite lookup_insert_ne in Hrun by done.
      destruct (slots st !! resultForBackward) as [b|] eqn:Hb; simpl in Hrun;
        apply srb_slots in Hrun; rewrite Hrun; simpl.
      * by rewrite lookup_insert_ne.
      * rewrite !lookup_insert_ne; [done|done|congruence].
Qed.

Lemma typed_after_tensor st fp dims :
  layer_data_typed st →
  layer_data_typed
    {| objects := objects st ++ [HomogenTensor fp dims];
       slots := <[value := length (objects st)]> (slots st) |}.
Proof.
  intros Ht a. simpl. rewrite lookup_insert_ne by done.
  intros [e He]%Ht. exists e. by apply lookup_app_l_Some.
Qed.

Lemma typed_after_layer_data (os : list object) (sl : gmap ResultId addr) :
  layer_data_typed
    {| objects := os ++ [LayerData ∅];
       slots := <[resultForBackward := length os]> sl |}.
Proof.
  intros a. simpl. rewrite lookup_insert_eq. intros [= <-].
  exists ∅. by apply list_lookup_middle.
Qed.

(** The call returns when the result is well typed and either the
    [value] slot is populated or the input data is a tensor. *)
Lemma allocate_runs fp input par method st :
  layer_data_typed st →
  is_Some (slots st !! value) ∨ (∃ dims, data_dims st input dims) →
  ∃ st', allocate fp input par method st = Some (tt, st').
Proof using srb_runs.
  intros Ht Hpre.
  (* the state after the [value] block *)
  assert (∃ st1, layer_data_typed st1 ∧
            (v ← get value;
             if is_null v
             then dims ← getDimensions (Input_get input data);
                  DAAL_ALLOCATE_TENSOR_AND_SET fp value dims
             else mret tt) st = Some (tt, st1)) as (st1 & Ht1 & Hv).
  { run. destruct (slots st !! value) as [v|] eqn:Hv; simpl.
    - by exists st.
    - destruct Hpre as [[? [=]]|(dims & d & fp' & -> & ->)]. simpl.
      eexists. split; [by apply typed_after_tensor|done]. }
  unfold allocate. run. rewrite Hv. clear Hv Hpre Ht st.
  destruct (predictionStage par); simpl; [by eexists|].
  destruct (slots st1 !! resultForBackward) as [b|] eqn:Hb; simpl.
  - destruct (srb_runs input st1) as [[[] st'] ->]; [by rewrite Hb|done|].
    by eexists.
  - match goal with |- ∃ _, setResultForBackward _ ?s = _ =>
      destruct (srb_runs input s) as [[[] st'] ->]
    end.
    + simpl. by rewrite lookup_insert_eq.
    + apply typed_after_layer_data.
    + by eexists.
Qed.

(** In the prediction stage the [resultForBackward] slot is not
    touched. *)
Lemma allocate_prediction fp input par method st u st' :
  allocate fp input par method st = Some (u, st') →
  predictionStage par = true →
  slots st' !! resultForBackward = slots st !! resultForBackward.
Proof.
  intros Hrun Hp. run. rewrite Hp in Hrun. simpl in Hrun.
  destruct (slots st !! value) as [v|]; simpl in Hrun; [by simplify_eq|].
  destruct (Input_get input data) as [d|]; [|done].
  destruct (objects st !! d) as [[? dims|]|]; try done.
  simplify_eq. simpl. by rewrite lookup_insert_ne.
Qed.

(** Outside the prediction stage the [resultForBackward] slot is
    populated on return. *)
Lemma allocate_training fp input par method st u st' :
  allocate fp input par method st = Some (u, st') →
  predictionStage par = false →
  is_Some (slots st' !! resultForBackward).
Proof using srb_slots.
  intros Hrun Hp. run. rewrite Hp in Hrun. simpl in Hrun.
  destruct (slots st !! value) as [v|]; simpl in Hrun.
  - destruct (slots st !! resultForBackward) as [b|] eqn:Hb; simpl in Hrun;
      apply srb_slots in Hrun; rewrite Hrun; simpl.
    + by rewrite Hb.
    + by rewrite lookup_insert_eq.
  - destruct (Input_get input data) as [d|]; [|done].
    destruct (objects st !! d) as [[? dims|]|]; try done. simpl in Hrun.
    rewrite lookup_insert_ne in Hrun by done.
    destruct (slots st !! resultForBackward) as [b|] eqn:Hb; simpl in Hrun;
      apply srb_slots in Hrun; rewrite Hrun; simpl.
    + rewrite lookup_insert_ne by done. by rewrite Hb.
    + by rewrite lookup_insert_eq.
Qed.

(** A [value] slot that is empty on entry holds, on return, a new
    tensor of the element type of the instantiation and of the
    dimensions of the input data. *)
Lemma allocate_value_new fp input par method st u st' dims :
  allocate fp input par method st = Some (u, st') →
  slots st !! value = None →
  data_dims st input dims →
  layer_data_typed st →
  slots st' !! value = Some (length (objects st)) ∧
  objects st' !! length (objects st) = Some (HomogenTensor fp dims).
Proof using srb_slots srb_objects.
  intros Hrun Hv (d & fp' & Hd & Hobj) Ht. run.
  rewrite Hv, Hd, Hobj in Hrun. simpl in Hrun.
  destruct (predictionStage par); simpl in Hrun.
  { simplify_eq. simpl. rewrite lookup_insert_eq.
    split; [done|by apply list_lookup_middle]. }
  rewrite lookup_insert_ne in Hrun by done.
  destruct (slots st !! resultForBackward) as [b|] eqn:Hb; simpl in Hrun.
  - destruct (Ht b Hb) as [e He]. apply lookup_lt_Some in He as Hlt.
    pose proof (srb_slots _ _ _ _ Hrun) as Hs.
    pose proof (srb_objects _ _ _ _ (length (objects st)) Hrun) as Ho.
    simpl in *. rewrite Hs, Ho.
    + rewrite lookup_insert_eq. split; [done|by apply list_lookup_middle].
    + rewrite lookup_insert_ne, Hb by done. intros [= ->]. lia.
  - pose proof (srb_slots _ _ _ _ Hrun) as Hs.
    pose proof (srb_objects _ _ _ _ (length (objects st)) Hrun) as Ho.
    simpl in *. rewrite Hs, Ho.
    + rewrite lookup_insert_ne, lookup_insert_eq by done.
      split; [done|]. rewrite <- app_assoc. by apply list_lookup_middle.
    + rewrite lookup_insert_eq, length_app. simpl. intros [=]. lia.
Qed.

(** ** Properties of [allocate] *)

(** C2 (allocation idempotence): when [allocate] is called twice with
    the same input and parameter, a result slot ([value] or
    [resultForBackward]) that is populated after the first call is
    bound to the very same object after the second call. *)
Theorem allocate_twice_same_object fp input par method st u1 st1 u2 st2 id a :
  allocate fp input par method st = Some (u1, st1) →
  slots st1 !! id = Some a →
  allocate fp input par method st1 = Some (u2, st2) →
  slots st2 !! id = Some a.
Proof using srb_slots.
  intros _ Hid Hsecond. by eapply allocate_keeps_bound_slot.
Qed.

(** C3 (shape propagation): for an input whose [data] slot holds a
    tensor of dimensions [dims] (for instance [[n; d]]) and for each
    instantiation of [algorithmFPType], [allocate] on a result whose
    [value] slot is still empty returns with the [value] slot bound to
    a tensor of exactly the dimensions [dims] read from the input. *)
Theorem allocate_value_shape fp input par method st dims :
  data_dims st input dims →
  slots st !! value = None →
  layer_data_typed st →
  ∃ st' a, allocate fp input par method st = Some (tt, st') ∧
           slots st' !! value = Some a ∧
           objects st' !! a = Some (HomogenTensor fp dims).
Proof using srb_runs srb_slots srb_objects.
  intros Hd Hv Ht.
  destruct (allocate_runs fp input par method st) as [st' Hrun]; eauto.
  exists st', (length (objects st)). split; [done|].
  by eapply allocate_value_new.
Qed.

(** C4 (prediction-stage gating): whenever [allocate] runs, it returns,
    and then: with [predictionStage = true] the [resultForBackward]
    slot is as it was on entry, so it remains absent; with
    [predictionStage = false] the slot is populated. *)
Theorem allocate_prediction_stage_gating fp input par method st :
  layer_data_typed st →
  is_Some (slots st !! value) ∨ (∃ dims, data_dims st input dims) →
  ∃ st', allocate fp input par method st = Some (tt, st') ∧
    (predictionStage par = true →
       slots st' !! resultForBackward = slots st !! resultForBackward ∧
       (slots st !! resultForBackward = None →
        slots st' !! resultForBackward = None)) ∧
    (predictionStage par = false →
       is_Some (slots st' !! resultForBackward)).
Proof using srb_runs srb_slots.
  intros Ht Hpre.
  destruct (allocate_runs fp input par method st) as [st' Hrun]; [done..|].
  exists st'. split; [done|]. split.
  - intros Hp. pose proof (allocate_prediction _ _ _ _ _ _ _ Hrun Hp) as ->.
    done.
  - intros Hp. by eapply allocate_training.
Qed.

(** ** Further properties of [allocate] *)

(** On return the [value] slot is populated. *)
Lemma allocate_value_bound fp input par method st u st' :
  allocate fp input par method st = Some (u, st') →
  is_Some (slots st' !! value).
Proof using srb_slots.
  intros Hrun.
  destruct (slots st !! value) as [v|] eqn:Hv.
  { exists v. by eapply allocate_keeps_bound_slot. }
  run. rewrite Hv in Hrun. simpl in Hrun.
  destruct (Input_get input data) as [d|]; [|done].
  destruct (objects st !! d) as [[? dims|]|]; try done. simpl in Hrun.
  destruct (predictionStage par); simpl in Hrun.
  { simplify_eq. simpl. by rewrite lookup_insert_eq. }
  rewrite lookup_insert_ne in Hrun by done.
  destruct (slots st !! resultForBackward) as [b|]; simpl in Hrun;
    apply srb_slots in Hrun; rewrite Hrun; simpl.
  - by rewrite lookup_insert_eq.
  - by rewrite lookup_insert_ne, lookup_insert_eq.
Qed.

(** X1 (frame of the store): a call that returns leaves every object that
    existed on entry as it was, except possibly the [LayerData] held by
    the [resultForBackward] slot; in particular the tensors of the input
    are not modified. *)
Theorem allocate_preserves_objects fp input par method st u st' a :
  allocate fp input par method st = Some (u, st') →
  a < length (objects st) →
  slots st !! resultForBackward ≠ Some a →
  objects st' !! a = objects st !! a.
Proof using srb_objects.
  intros Hrun Hlt Hne. run.
  destruct (slots st !! value) as [v|] eqn:Hv; simpl in Hrun.
  - destruct (predictionStage par); simpl in Hrun; [by simplify_eq|].
    destruct (slots st !! resultForBackward) as [b|] eqn:Hb; simpl in Hrun.
    + by eapply srb_objects; [done|rewrite Hb].
    + erewrite srb_objects; [|done|]; simpl.
      * by apply lookup_app_l.
      * rewrite lookup_insert_eq. intros [=]. lia.
  - destruct (Input_get input data) as [d|]; [|done].
    destruct (objects st !! d) as [[? dims|]|]; try done. simpl in Hrun.
    destruct (predictionStage par); simpl in Hrun.
    { simplify_eq. simpl. by apply lookup_app_l. }
    rewrite lookup_insert_ne in Hrun by done.
    destruct (slots st !! resultForBackward) as [b|] eqn:Hb; simpl in Hrun.
    + erewrite srb_objects; [|done|]; simpl.
      * by apply lookup_app_l.
      * by rewrite lookup_insert_ne, Hb.
    + erewrite srb_objects; [|done|]; simpl.
      * rewrite lookup_app_l by (rewrite length_app; simpl; lia).
        by apply lookup_app_l.
      * rewrite lookup_insert_eq, length_app. simpl. intros [=]. lia.
Qed.

(** X2 (required output present): whenever the call returns, the [value]
    slot is populated, whether it was on entry or not. *)
Theorem allocate_populates_value fp input par method st u st' :
  allocate fp input par method st = Some (u, st') →
  ∃ a, slots st' !! value = Some a ∧
       (∀ v, slots st !! value = Some v → a = v).
Proof using srb_slots.
  intros Hrun.
  destruct (allocate_value_bound _ _ _ _ _ _ _ Hrun) as [a Ha].
  exists a. split; [done|]. intros v Hv.
  pose proof (allocate_keeps_bound_slot _ _ _ _ _ _ _ _ _ Hrun Hv). congruence.
Qed.

(** X3 (a second call binds nothing): when [allocate] is called twice with
    the same input and parameter, the second call leaves the whole slot
    collection of the result as the first call left it. *)
Theorem allocate_twice_same_slots fp input par method st u1 st1 u2 st2 :
  allocate fp input par method st = Some (u1, st1) →
  allocate fp input par method st1 = Some (u2, st2) →
  slots st2 = slots st1.
Proof using srb_slots.
  intros Hfirst Hsecond.
  destruct (allocate_value_bound _ _ _ _ _ _ _ Hfirst) as [v Hv].
  destruct (predictionStage par) eqn:Hp.
  - clear Hfirst. run. rewrite Hv, Hp in Hsecond. simpl in Hsecond.
    by simplify_eq.
  - destruct (allocate_training _ _ _ _ _ _ _ Hfirst Hp) as [b Hb].
    clear Hfirst. run. rewrite Hv, Hp in Hsecond. simpl in Hsecond.
    rewrite Hb in Hsecond. simpl in Hsecond. by eapply srb_slots.
Qed.

(** X4 (idempotence in the prediction stage): with
    [predictionStage = true] a second call does nothing at all: it
    returns the state the first call produced, allocating no object. *)
Theorem allocate_prediction_idempotent fp input par method st u st1 :
  predictionStage par = true →
  allocate fp input par method st = Some (u, st1) →
  allocate fp input par method st1 = Some (tt, st1).
Proof.
  intros Hp Hfirst.
  assert (is_Some (slots st1 !! value)) as [v Hv].
  { run. rewrite Hp in Hfirst. simpl in Hfirst.
    destruct (slots st !! value) as [v|] eqn:Hv; simpl in Hfirst.
    - simplify_eq. by rewrite Hv.
    - destruct (Input_get input data) as [d|]; [|done].
      destruct (objects st !! d) as [[? dims|]|]; try done.
      simplify_eq. simpl. by rewrite lookup_insert_eq. }
  clear Hfirst. run. by rewrite Hv, Hp.
Qed.

(** X5 (fresh objects, no aliasing): a [value] slot that was empty is
    bound to an address that held no object on entry, so the output
    tensor is never the input tensor; and outside the prediction stage an
    empty [resultForBackward] slot is bound to another new address,
    different from the one of [value]. *)
Theorem allocate_binds_fresh_objects fp input par method st u st' :
  (∀ v, slots st !! value = Some v → is_Some (objects st !! v)) →
  allocate fp input par method st = Some (u, st') →
  (slots st !! value = None →
   ∃ a, slots st' !! value = Some a ∧ objects st !! a = None ∧
        Input_get input data ≠ Some a) ∧
  (predictionStage par = false → slots st !! resultForBackward = None →
   ∃ b, slots st' !! resultForBackward = Some b ∧ objects st !! b = None ∧
        slots st' !! value ≠ Some b).
Proof using srb_slots.
  intros Hvalid Hrun. run.
  destruct (slots st !! value) as [v|] eqn:Hv; simpl in Hrun.
  - split; [done|]. intros Hp Hb. rewrite Hp in Hrun. simpl in Hrun.
    rewrite Hb in Hrun. simpl in Hrun.
    apply srb_slots in Hrun. rewrite Hrun. simpl.
    exists (length (objects st)). rewrite lookup_insert_eq.
    split; [done|]. split; [by apply lookup_ge_None|].
    rewrite lookup_insert_ne, Hv by done.
    destruct (Hvalid v eq_refl) as [o Ho%lookup_lt_Some]. intros [=]. lia.
  - destruct (Input_get input data) as [d|] eqn:Hd; [|done].
    destruct (objects st !! d) as [[? dims|]|] eqn:Ho; try done.
    simpl in Hrun. apply lookup_lt_Some in Ho.
    assert (objects st !! length (objects st) = None) as Hnew
      by by apply lookup_ge_None.
    destruct (predictionStage par); simpl in Hrun.
    { simplify_eq. simpl. split; [|done]. intros _.
      exists (length (objects st)). rewrite lookup_insert_eq.
      repeat split; [done|]. intros [=]. lia. }
    rewrite lookup_insert_ne in Hrun by done.
    destruct (slots st !! resultForBackward) as [b|] eqn:Hb; simpl in Hrun;
      apply srb_slots in Hrun; rewrite Hrun; simpl.
    + split; [|done]. intros _.
      exists (length (objects st)). rewrite lookup_insert_eq.
      repeat split; [done|]. intros [=]. lia.
    + split.
      * intros _. exists (length (objects st)).
        rewrite lookup_insert_ne, lookup_insert_eq by done.
        repeat split; [done|]. intros [=]. lia.
      * intros _ _. exists (length (objects st ++ [HomogenTensor fp dims])).
        rewrite lookup_insert_eq, lookup_insert_ne, lookup_insert_eq by done.
        rewrite length_app. simpl. split; [done|].
        split; [apply lookup_ge_None; lia|]. intros [=]. lia.
Qed.

End allocate.

(** ** A helper to run [allocate] with

    An implementation of [setResultForBackward] in the style of the
    layers: it stores the handle of the [value] slot in the layer data
    of the [resultForBackward] slot, under key [0]. *)
Definition keep_value_for_backward (input : Input) : M unit :=
  λ st, match slots st !! resultForBackward with
        | Some b =>
            match objects st !! b with
            | Some (LayerData e) =>
                let e' := match slots st !! value with
                          | Some v => <[0%N := v]> e
                          | None => delete 0%N e
                          end in
                Some (tt, {| objects := <[b := LayerData e']> (objects st);
                             slots := slots st |})
            | _ => None
            end
        | None => None
        end.

Lemma keep_value_runs input st :
  is_Some (slots st !! resultForBackward) → layer_data_typed st →
  is_Some (keep_value_for_backward input st).
Proof.
  intros [b Hb] Ht. destruct (Ht b Hb) as [e He].
  unfold keep_value_for_backward. by rewrite Hb, He.
Qed.

Lemma keep_value_slots input st u st' :
  keep_value_for_backward input st = Some (u, st') → slots st' = slots st.
Proof.
  unfold keep_value_for_backward. intros H.
  destruct (slots st !! resultForBackward) as [b|]; [|done].
  destruct (objects st !! b) as [[|e]|]; try done. by simplify_eq.
Qed.

Lemma keep_value_objects input st u st' a :
  keep_value_for_backward input st = Some (u, st') →
  slots st !! resultForBackward ≠ Some a →
  objects st' !! a = objects st !! a.
Proof.
  unfold keep_value_for_backward. intros H Hne.
  destruct (slots st !! resultForBackward) as [b|]; [|done].
  destruct (objects st !! b) as [[|e]|]; try done. simplify_eq. simpl.
  apply list_lookup_insert_ne. congruence.
Qed.

(** A fresh result, an input with a 2 x 3 single-precision tensor, and
    the state the first call leaves behind. *)
Definition fresh_result : state :=
  {| objects := [HomogenTensor fp_float [2%N; 3%N]]; slots := ∅ |}.
Definition input_2x3 : Input := {| in_slots := {[data := 0%nat]} |}.
Definition training : layers_Parameter := {| predictionStage := false |}.
Definition after (m : M unit) (st : state) : state :=
  match m st with Some (_, st') => st' | None => st end.
Definition once : state :=
  after (allocate keep_value_for_backward fp_double input_2x3 training 0)
        fresh_result.
Definition twice : state :=
  after (allocate keep_value_for_backward fp_double input_2x3 training 0)
        once.

(** The first call binds [value] to a new double-precision 2 x 3 tensor
    at address 1 and [resultForBackward] to a new [LayerData] at address
    2, in which the helper records the value tensor. *)
Example first_call :
  objects once =
    [HomogenTensor fp_float [2%N; 3%N]; HomogenTensor fp_double [2%N; 3%N];
     LayerData {[ 0%N := 1%nat ]}] ∧
  slots once !! value = Some 1%nat ∧
  slots once !! resultForBackward = Some 2%nat.
Proof. by vm_compute. Qed.

(** The second call allocates nothing. *)
Example second_call : twice = once.
Proof. by vm_compute. Qed.

(** Without a tensor in the [data] slot the call on a fresh result
    dereferences a null handle. *)
Example null_data :
  allocate keep_value_for_backward fp_double {| in_slots := ∅ |} training 0
    {| objects := []; slots := ∅ |} = None.
Proof. reflexivity. Qed.

(** A result whose [value] slot was populated by the caller keeps that
    tensor, whatever its shape, and the input is not read. *)
Example caller_supplied_value :
  allocate keep_value_for_backward fp_double {| in_slots := ∅ |}
    {| predictionStage := true |} 0
    {| objects := [HomogenTensor fp_float [7%N]]; slots := {[ value := 0%nat ]} |} =
  Some (tt, {| objects := [HomogenTensor fp_float [7%N]];
               slots := {[ value := 0%nat ]} |}).
Proof. by vm_compute. Qed.

Lemma fresh_result_typed : layer_data_typed fresh_result.
Proof. intros a. by vm_compute. Qed.

Lemma input_2x3_dims : data_dims fresh_result input_2x3 [2%N; 3%N].
Proof. by exists 0%nat, fp_float. Qed.

Lemma allocate_twice_same_object_witness :
  slots twice !! resultForBackward = Some 2%nat.
Proof.
  apply (allocate_twice_same_object keep_value_for_backward keep_value_slots
           fp_double input_2x3 training 0 fresh_result tt once tt twice);
    by vm_compute.
Defined.

Lemma allocate_value_shape_witness :
  ∃ st' a,
    allocate keep_value_for_backward fp_double input_2x3 training 0
      fresh_result = Some (tt, st') ∧
    slots st' !! value = Some a ∧
    objects st' !! a = Some (HomogenTensor fp_double [2%N; 3%N]).
Proof.
  apply (allocate_value_shape keep_value_for_backward keep_value_runs
           keep_value_slots keep_value_objects).
  - exact input_2x3_dims.
  - reflexivity.
  - exact fresh_result_typed.
Defined.

Lemma allocate_prediction_stage_gating_witness :
  ∃ st',
    allocate keep_value_for_backward fp_double input_2x3 training 0
      fresh_result = Some (tt, st') ∧
    (predictionStage training = true →
       slots st' !! resultForBackward = slots fresh_result !! resultForBackward ∧
       (slots fresh_result !! resultForBackward = None →
        slots st' !! resultForBackward = None)) ∧
    (predictionStage training = false →
       is_Some (slots st' !! resultForBackward)).
Proof.
  apply (allocate_prediction_stage_gating keep_value_for_backward
           keep_value_runs keep_value_slots).
  - exact fresh_result_typed.
  - right. eexists. exact input_2x3_dims.
Defined.

(** The prediction stage, and the state a call in it leaves behind. *)
Definition predicting : layers_Parameter := {| predictionStage := true |}.
Definition predicted : state :=
  after (allocate keep_value_for_backward fp_double input_2x3 predicting 0)
        fresh_result.

Lemma allocate_preserves_objects_witness :
  objects once !! 0%nat = objects fresh_result !! 0%nat.
Proof.
  apply (allocate_preserves_objects keep_value_for_backward keep_value_objects
           fp_double input_2x3 training 0 fresh_result tt once 0%nat).
  - by vm_compute.
  - simpl. lia.
  - by vm_compute.
Defined.

Lemma allocate_populates_value_witness :
  ∃ a, slots once !! value = Some a ∧
       (∀ v, slots fresh_result !! value = Some v → a = v).
Proof.
  apply (allocate_populates_value keep_value_for_backward keep_value_slots
           fp_double input_2x3 training 0 fresh_result tt once).
  by vm_compute.
Defined.

Lemma allocate_twice_same_slots_witness : slots twice = slots once.
Proof.
  apply (allocate_twice_same_slots keep_value_for_backward keep_value_slots
           fp_double input_2x3 training 0 fresh_result tt once tt twice);
    by vm_compute.
Defined.

Lemma allocate_prediction_idempotent_witness :
  allocate keep_value_for_backward fp_double input_2x3 predicting 0 predicted =
  Some (tt, predicted).
Proof.
  apply (allocate_prediction_idempotent keep_value_for_backward
           fp_double input_2x3 predicting 0 fresh_result tt predicted);
    by vm_compute.
Defined.

Lemma allocate_binds_fresh_objects_witness :
  (slots fresh_result !! value = None →
   ∃ a, slots once !! value = Some a ∧ objects fresh_result !! a = None ∧
        Input_get input_2x3 data ≠ Some a) ∧
  (predictionStage training = false →
   slots fresh_result !! resultForBackward = None →
   ∃ b, slots once !! resultForBackward = Some b ∧
        objects fresh_result !! b = None ∧
        slots once !! value ≠ Some b).
Proof.
  apply (allocate_binds_fresh_objects keep_value_for_backward keep_value_slots
           fp_double input_2x3 training 0 fresh_result tt once).
  - intros v. by vm_compute.
  - by vm_compute.
Defined.

(** ** The pointer arguments

    [allocate] receives [input] and [par] as pointers and tests neither
    before it uses them: [in->get(...)] dereferences [input] inside the
    [value] block, [parameter->predictionStage] dereferences [par] on
    every call, and [setResultForBackward] is handed [input] as it is.  A
    null pointer is [None]. *)
Definition deref {A} (p : option A) : M A :=
  λ st, match p with Some a => Some (a, st) | None => None end.

Section allocate_ptr.

(** [Result::setResultForBackward], which receives the [input] pointer. *)
Variable setResultForBackward : option Input → M unit.

(** [Result::allocate] on its pointer arguments. *)
Definition allocate_ptr (algorithmFPType : FPType)
    (input : option Input) (par : option layers_Parameter) (method : Z) : M unit :=
  v ← get value;
  (if is_null v
   then in_ ← deref input;
        dims ← getDimensions (Input_get in_ data);
        DAAL_ALLOCATE_TENSOR_AND_SET algorithmFPType value dims
   else mret tt);;
  parameter ← deref par;
  if negb (predictionStage parameter)
  then b ← get resultForBackward;
       (if is_null b
        then l ← new (LayerData ∅); set resultForBackward l
        else mret tt);;
       setResultForBackward input
  else mret tt.

(** On pointers that are not null this is [allocate]. *)
Lemma allocate_ptr_non_null fp (i : Input) (p : layers_Parameter) method st :
  allocate_ptr fp (Some i) (Some p) method st =
  allocate (λ i, setResultForBackward (Some i)) fp i p method st.
Proof.
  unfold allocate_ptr, allocate, deref, mbind, mret, M_bind, M_ret, get.
  simpl. destruct (slots st !! value); simpl; [done|].
  by destruct (getDimensions (Input_get i data) st) as [[dims st1]|].
Qed.

(** The helper runs on an input that is there when the
    [resultForBackward] slot holds a [LayerData]. *)
Hypothesis srb_runs : ∀ i st,
  is_Some (slots st !! resultForBackward) → layer_data_typed st →
  is_Some (setResultForBackward (Some i) st).

Ltac run_ptr := unfold allocate_ptr, DAAL_ALLOCATE_TENSOR_AND_SET,
                  getDimensions, deref, new, set, get, mbind, mret, M_bind,
                  M_ret, is_null in *;
                simpl in *.

(** A null [par] is dereferenced on every call. *)
Lemma allocate_ptr_null_par fp input method st :
  allocate_ptr fp input None method st = None.
Proof.
  run_ptr. destruct (slots st !! value); simpl; [done|].
  destruct input as [i|]; [|done].
  destruct (Input_get i data) as [d|]; [|done].
  by destruct (objects st !! d) as [[? dims|]|].
Qed.

(** With an empty [value] slot the input and its [data] slot are
    dereferenced. *)
Lemma allocate_ptr_reads_data fp input par method st :
  slots st !! value = None →
  is_Some (allocate_ptr fp input par method st) →
  ∃ i dims, input = Some i ∧ data_dims st i dims.
Proof.
  intros Hv [[u st'] Hrun]. run_ptr. rewrite Hv in Hrun. simpl in Hrun.
  destruct input as [i|]; [|done]. simpl in Hrun.
  destruct (Input_get i data) as [d|] eqn:Hd; [|done].
  destruct (objects st !! d) as [[fp' dims|]|] eqn:Ho; try done.
  exists i, dims. split; [done|]. by exists d, fp'.
Qed.

Lemma allocate_ptr_runs fp (i : Input) (p : layers_Parameter) method st :
  layer_data_typed st →
  is_Some (slots st !! value) ∨ (∃ dims, data_dims st i dims) →
  is_Some (allocate_ptr fp (Some i) (Some p) method st).
Proof using srb_runs.
  intros Ht Hpre. rewrite allocate_ptr_non_null.
  destruct (allocate_runs (λ i, setResultForBackward (Some i))
              (λ i st, srb_runs i st) fp i p method st) as [st' ->]; eauto.
Qed.

(** C9 (no presence validation), as the code has it: on a result whose
    [value] slot is empty, [allocate] dereferences the input and the
    handle of its [data] slot without testing them.  For an input whose
    [data] slot is absent the run is a null dereference, not an error
    return; a run that returns had a tensor in the [data] slot of its
    input; and for a well-typed result and pointers that are not null, a
    tensor in the [data] slot is enough for the run to return. *)
Theorem allocate_ptr_dereferences_data fp input par method st :
  slots st !! value = None →
  (∀ i, input = Some i → Input_get i data = None →
        allocate_ptr fp input par method st = None) ∧
  (input = None → allocate_ptr fp input par method st = None) ∧
  (is_Some (allocate_ptr fp input par method st) →
   ∃ i dims, input = Some i ∧ data_dims st i dims) ∧
  (layer_data_typed st →
   ∀ i p dims, input = Some i → par = Some p → data_dims st i dims →
               is_Some (allocate_ptr fp input par method st)).
Proof using srb_runs.
  intros Hv. repeat split.
  - intros i -> Hd. run_ptr. by rewrite Hv, Hd.
  - intros ->. run_ptr. by rewrite Hv.
  - by apply allocate_ptr_reads_data.
  - intros Ht i p dims -> -> Hd. apply allocate_ptr_runs; eauto.
Qed.

(** X6 (exact safety condition): a null [par] makes every call a null
    dereference; a null [input] does so when the [value] slot is empty;
    and for a well-typed result and pointers that are not null, the call
    returns exactly when the [value] slot is already populated or the
    [data] slot of the input holds a tensor. *)
Theorem allocate_ptr_returns_iff fp input par method st :
  layer_data_typed st →
  (par = None → allocate_ptr fp input par method st = None) ∧
  (input = None → slots st !! value = None →
   allocate_ptr fp input par method st = None) ∧
  (∀ i p, input = Some i → par = Some p →
     (is_Some (allocate_ptr fp input par method st) ↔
      is_Some (slots st !! value) ∨ (∃ dims, data_dims st i dims))).
Proof using srb_runs.
  intros Ht. repeat split.
  - intros ->. apply allocate_ptr_null_par.
  - intros -> Hv. run_ptr. by rewrite Hv.
  - subst. intros Hrun.
    destruct (slots st !! value) as [v|] eqn:Hv; [by left|right].
    destruct (allocate_ptr_reads_data _ _ _ _ _ Hv Hrun)
      as (i' & dims & [= <-] & Hd).
    by exists dims.
  - subst. intros Hpre. by apply allocate_ptr_runs.
Qed.

End allocate_ptr.

(** The helper of the examples, on the pointer it receives; it does not
    read the input. *)
Definition keep_value_ptr (input : option Input) : M unit :=
  keep_value_for_backward (default {| in_slots := ∅ |} input).

Lemma keep_value_ptr_runs i st :
  is_Some (slots st !! resultForBackward) → layer_data_typed st →
  is_Some (keep_value_ptr (Some i) st).
Proof. apply keep_value_runs. Qed.

(** A result whose [value] slot the caller has populated, and an input
    without data. *)
Definition supplied_value : state :=
  {| objects := [HomogenTensor fp_float [7%N]]; slots := {[ value := 0%nat ]} |}.
Definition no_data : Input := {| in_slots := ∅ |}.

(** C9, refuted as stated: the dereference of the [data] handle is not
    unconditional and the data slot is not a precondition of every safe
    call.  On a result whose [value] slot is populated, [allocate]
    returns for an input whose [data] slot is absent, leaving the result
    as it was. *)
Lemma allocate_skips_data_when_value_bound :
  Input_get no_data data = None ∧
  allocate_ptr keep_value_ptr fp_double (Some no_data) (Some predicting) 0
    supplied_value = Some (tt, supplied_value) ∧
  allocate keep_value_for_backward fp_double no_data predicting 0
    supplied_value = Some (tt, supplied_value) ∧
  ¬ (∀ srb fp (input : Input) (par : layers_Parameter) method st,
       is_Some (allocate_ptr srb fp (Some input) (Some par) method st) →
       is_Some (Input_get input data)).
Proof.
  repeat split; try by vm_compute.
  intros H.
  destruct (H keep_value_ptr fp_double no_data predicting 0%Z supplied_value)
    as [d Hd].
  - eexists. by vm_compute.
  - by vm_compute in Hd.
Qed.

Lemma allocate_ptr_dereferences_data_witness :
  (∀ i, Some input_2x3 = Some i → Input_get i data = None →
        allocate_ptr keep_value_ptr fp_double (Some input_2x3) (Some training) 0
          fresh_result = None) ∧
  (Some input_2x3 = None →
   allocate_ptr keep_value_ptr fp_double (Some input_2x3) (Some training) 0
     fresh_result = None) ∧
  (is_Some (allocate_ptr keep_value_ptr fp_double (Some input_2x3)
              (Some training) 0 fresh_result) →
   ∃ i dims, Some input_2x3 = Some i ∧ data_dims fresh_result i dims) ∧
  (layer_data_typed fresh_result →
   ∀ i p dims, Some input_2x3 = Some i → Some training = Some p →
               data_dims fresh_result i dims →
               is_Some (allocate_ptr keep_value_ptr fp_double (Some input_2x3)
                          (Some training) 0 fresh_result)).
Proof.
  apply (allocate_ptr_dereferences_data keep_value_ptr keep_value_ptr_runs).
  reflexivity.
Defined.

Lemma allocate_ptr_returns_iff_witness :
  (Some training = None →
   allocate_ptr keep_value_ptr fp_double (Some input_2x3) (Some training) 0
     fresh_result = None) ∧
  (Some input_2x3 = None → slots fresh_result !! value = None →
   allocate_ptr keep_value_ptr fp_double (Some input_2x3) (Some training) 0
     fresh_result = None) ∧
  (∀ i p, Some input_2x3 = Some i → Some training = Some p →
     (is_Some (allocate_ptr keep_value_ptr fp_double (Some input_2x3)
                 (Some training) 0 fresh_result) ↔
      is_Some (slots fresh_result !! value) ∨
      (∃ dims, data_dims fresh_result i dims))).
Proof.
  apply (allocate_ptr_returns_iff keep_value_ptr keep_value_ptr_runs).
  exact fresh_result_typed.
Defined.

(** Null pointers on concrete states: a null [par] crashes even a call
    that has nothing to allocate, and a null [input] crashes a call on a
    fresh result. *)
Example null_par :
  allocate_ptr keep_value_ptr fp_double (Some no_data) None 0 supplied_value = None.
Proof. reflexivity. Qed.

Example null_input :
  allocate_ptr keep_value_ptr fp_double None (Some predicting) 0 fresh_result = None.
Proof. reflexivity. Qed.

End tanh_forward.

(** * multi_class_classifier::quality_metric_set *)
Module multi_class_classifier_quality_metric_set.
Import services.

(** [size_t] values are naturals; [Parameter] only stores the one it is
    given, so the width of the type plays no part. *)

(** [enum QualityMetricId { confusionMatrix = 0 }] *)
Inductive QualityMetricId : Set := confusionMatrix.

(** The conversion [(size_t)id]. *)
Definition QualityMetricId_value (id : QualityMetricId) : N :=
  match id with confusionMatrix => 0 end.

(** [struct Parameter] ([Parameter] is reserved in Rocq). *)
Record Parameter_ := { nClasses : N }.

(** [Parameter(size_t nClasses = 2) : nClasses(nClasses) {}]; an omitted
    argument is [None]. *)
Definition new_Parameter (arg : option N) : Parameter_ :=
  {| nClasses := match arg with Some n => n | None => 2 end |}.

(** The classes an entry of a quality-metric collection can belong to:
    the result and the input of the multi-class confusion matrix, and the
    other implementations of [SerializationIface], told apart by their
    serialization tag. *)
Inductive class :=
| multiclass_confusion_matrix_Result
| multiclass_confusion_matrix_Input
| other_SerializationIface (tag : N).

#[global] Instance class_eq_dec : EqDecision class.
Proof. solve_decision. Defined.

(** The store maps an address to the dynamic type of the object there. *)
Definition store := list class.

(** [services::SharedPtr<T>]: the static type [T] of the pointee and the
    held pointer, null or an address. *)
Record SharedPtr (T : option class) := { ptr : option addr }.
Arguments ptr {T} _.

(** [SerializationIface] is the common base of all entries. *)
Definition SerializationIface : option class := None.

(** The class the object behind a handle really has. *)
Definition dynamic_type {T} (s : store) (p : SharedPtr T) : option class :=
  a ← ptr p; s !! a.

(** [services::staticPointerCast<T, U>] is declared in
    [services/daal_shared_ptr.h], outside the embedded files.  It is the
    [SharedPtr] form of [static_cast<T *>]: the held pointer is converted
    at compile time and the object behind it is not inspected. *)
Definition staticPointerCast (T U : option class) (r : SharedPtr U) : SharedPtr T :=
  {| ptr := ptr r |}.

(** The cast that inspects the object, [dynamic_cast<T *>], for
    comparison: null when the dynamic type is not [T]. *)
Definition checked_cast (T : class) {U} (s : store) (r : SharedPtr U) : SharedPtr (Some T) :=
  {| ptr := if decide (dynamic_type s r = Some T) then ptr r else None |}.

(** [quality_metric_set::ResultCollection]: a key-value collection from
    [size_t] keys to handles of [SerializationIface]; [operator[]] on a
    key without an entry gives the null handle. *)
Record ResultCollection := { entries : gmap N addr }.

Definition ResultCollection_at (c : ResultCollection) (key : N) : SharedPtr SerializationIface :=
  {| ptr := entries c !! key |}.

(** [ResultCollection::getResult(QualityMetricId id) const] *)
Definition getResult (c : ResultCollection) (id : QualityMetricId)
  : SharedPtr (Some multiclass_confusion_matrix_Result) :=
  staticPointerCast (Some multiclass_confusion_matrix_Result) SerializationIface
    (ResultCollection_at c (QualityMetricId_value id)).

(** What a checked down-cast in [getResult] would do. *)
Definition getResult_checked (s : store) (c : ResultCollection) (id : QualityMetricId)
  : SharedPtr (Some multiclass_confusion_matrix_Result) :=
  checked_cast multiclass_confusion_matrix_Result s
    (ResultCollection_at c (QualityMetricId_value id)).

(** A collection whose [confusionMatrix] entry is an input object. *)
Definition store_with_input : store := [multiclass_confusion_matrix_Input].
Definition collection_with_input : ResultCollection :=
  {| entries := {[ 0%N := 0%nat ]} |}.

(** C1, refuted as stated: for an entry whose dynamic type is not the
    confusion-matrix result, [getResult] does not return null; it returns
    the handle of that object under the static type of the result, where a
    checked cast returns null. *)
Lemma getResult_mismatch_not_null :
  dynamic_type store_with_input
    (ResultCollection_at collection_with_input 0) =
    Some multiclass_confusion_matrix_Input ∧
  ptr (getResult collection_with_input confusionMatrix) = Some 0%nat ∧
  ptr (getResult_checked store_with_input collection_with_input confusionMatrix) = None ∧
  ¬ (∀ (s : store) (c : ResultCollection) (id : QualityMetricId),
       dynamic_type s (ResultCollection_at c (QualityMetricId_value id))
         ≠ Some multiclass_confusion_matrix_Result →
       ptr (getResult c id) = None).
Proof.
  repeat split; try by vm_compute.
  intros H.
  specialize (H store_with_input collection_with_input confusionMatrix).
  vm_compute in H. by discriminate H.
Qed.

(** C1, as the code has it: [getResult] is an unchecked static down-cast.
    It returns the handle stored under the identifier whatever the dynamic
    type of the object is, so it agrees with the checked cast exactly when
    the entry is absent or a confusion-matrix result; for an entry that is
    a confusion-matrix result the cast yields that object. *)
Theorem getResult_static_cast (s : store) (c : ResultCollection) (id : QualityMetricId) :
  ptr (getResult c id) = entries c !! QualityMetricId_value id ∧
  dynamic_type s (getResult c id) =
    dynamic_type s (ResultCollection_at c (QualityMetricId_value id)) ∧
  (dynamic_type s (getResult c id) = Some multiclass_confusion_matrix_Result →
   is_Some (ptr (getResult c id)) ∧
   getResult c id = getResult_checked s c id) ∧
  (getResult c id = getResult_checked s c id ↔
   ptr (getResult c id) = None ∨
   dynamic_type s (getResult c id) = Some multiclass_confusion_matrix_Result).
Proof.
  unfold getResult, getResult_checked, staticPointerCast, checked_cast,
    ResultCollection_at, dynamic_type. simpl.
  destruct (entries c !! QualityMetricId_value id) as [a|] eqn:Ha; simpl.
  - repeat split; try done.
    + by case_decide.
    + intros H. case_decide; [by right|done].
    + intros [?|H]; [done|]. by case_decide.
  - repeat split; try done; try by case_decide.
    by left.
Qed.

(** C10: constructed without an argument, [Parameter] has [nClasses = 2],
    which is in the domain [nClasses >= 2]; constructed with [n], it has
    [nClasses = n]. *)
Theorem Parameter_nClasses :
  nClasses (new_Parameter None) = 2%N ∧
  (2 ≤ nClasses (new_Parameter None))%N ∧
  ∀ n : N, nClasses (new_Parameter (Some n)) = n.
Proof. repeat split; simpl; lia. Qed.

(** ** The collection of inputs *)

(** [algorithms::Input], the abstract base of the inputs: like
    [SerializationIface], the static type of a handle to any entry. *)
Definition algorithms_Input : option class := None.

(** [quality_metric_set::InputDataCollection]: a key-value collection
    from [size_t] keys to handles of inputs; its [getInput(size_t)] gives
    the null handle on a key without an entry. *)
Record InputDataCollection := { inputs : gmap N addr }.

Definition InputDataCollection_getInput (c : InputDataCollection) (key : N)
  : SharedPtr algorithms_Input :=
  {| ptr := inputs c !! key |}.

(** [InputDataCollection::getInput(QualityMetricId id) const] *)
Definition getInput (c : InputDataCollection) (id : QualityMetricId)
  : SharedPtr (Some multiclass_confusion_matrix_Input) :=
  staticPointerCast (Some multiclass_confusion_matrix_Input) algorithms_Input
    (InputDataCollection_getInput c (QualityMetricId_value id)).

(** What a checked down-cast in [getInput] would do. *)
Definition getInput_checked (s : store) (c : InputDataCollection) (id : QualityMetricId)
  : SharedPtr (Some multiclass_confusion_matrix_Input) :=
  checked_cast multiclass_confusion_matrix_Input s
    (InputDataCollection_getInput c (QualityMetricId_value id)).

(** X7 (the input side is unchecked too): [getInput] returns the handle
    stored under the identifier whatever the object behind it is, null
    exactly when there is no entry; it agrees with a checked cast exactly
    when the entry is absent or a confusion-matrix input. *)
Theorem getInput_static_cast (s : store) (c : InputDataCollection) (id : QualityMetricId) :
  ptr (getInput c id) = inputs c !! QualityMetricId_value id ∧
  (ptr (getInput c id) = None ↔ inputs c !! 0%N = None) ∧
  (getInput c id = getInput_checked s c id ↔
   ptr (getInput c id) = None ∨
   dynamic_type s (getInput c id) = Some multiclass_confusion_matrix_Input).
Proof.
  destruct id.
  unfold getInput, getInput_checked, staticPointerCast, checked_cast,
    InputDataCollection_getInput, dynamic_type. simpl.
  destruct (inputs c !! 0%N) as [a|] eqn:Ha; simpl.
  - repeat split; try done.
    + intros H. case_decide; [by right|done].
    + intros [?|H]; [done|]. by case_decide.
  - repeat split; try done; try by case_decide.
    by left.
Qed.

End multi_class_classifier_quality_metric_set.

(** * algorithms: base classes and the archive *)
Module algorithms.

(** Modelled from the spec: [services::Status], declared outside the
    embedded files: a composite status that carries any number of warnings
    and at most one fatal error, with an "is fatal" predicate.  The kinds
    are those of the error taxonomy. *)
Inductive ErrorKind :=
| StructuralError
| ShapeMismatchError
| ParameterDomainError
| TypeMismatchError
| SerializationError.

Record Status := { fatal_error : option ErrorKind; warnings : list ErrorKind }.

Definition Status_ok : Status := {| fatal_error := None; warnings := [] |}.

(** Adding a fatal finding keeps the first one. *)
Definition add_fatal (e : ErrorKind) (s : Status) : Status :=
  {| fatal_error := match fatal_error s with Some e0 => Some e0 | None => Some e end;
     warnings := warnings s |}.

Definition isFatal (s : Status) : bool :=
  match fatal_error s with Some _ => true | None => false end.

(** Modelled from the spec: [data_management::SerializationIface], an
    object that can be archived, given by the stable serialization tag of
    its class and the words of its state. *)
Record SerializationIface := { getSerializationTag : N; content : list N }.

(** Modelled from the spec: the slot collection of [Argument], the base
    of [Input], [Result] and [PartialResult]: a vector of [nElements]
    handles, each null or holding an object.  Slots are compared by the
    value of the object they hold. *)
Abbreviation Argument := (list (option SerializationIface)).

Definition new_Argument (nElements : nat) : Argument := replicate nElements None.

Definition Argument_get (a : Argument) (index : nat) : option SerializationIface :=
  mjoin (a !! index).

(** Modelled from the spec: the archive collaborator, which provides
    symmetric write and read primitives.  [InputDataArchive] collects the
    words written into it; [OutputDataArchive] hands out the words of a
    stream and fails on a truncated one. *)
Record InputDataArchive := { written : list N }.
Record OutputDataArchive := { unread : list N }.

(** A routine that runs on an archive and may fail. *)
Definition Ser (A X : Type) : Type := A → option (X * A).

#[global] Instance Ser_ret A : MRet (Ser A) := λ X x a, Some (x, a).

#[global] Instance Ser_bind A : MBind (Ser A) := λ X Y k m a,
  match m a with
  | Some (x, a') => k x a'
  | None => None
  end.

(** [arch->set(x)]: the one primitive used in both directions.  Writing
    stores [x]; reading replaces [x] by the next word of the stream. *)
Class Archive (A : Type) := arch_set : N → Ser A N.

#[global] Instance InputDataArchive_set : Archive InputDataArchive :=
  λ x a, Some (x, {| written := written a ++ [x] |}).

#[global] Instance OutputDataArchive_set : Archive OutputDataArchive :=
  λ _ a, match unread a with
         | y :: rest => Some (y, {| unread := rest |})
         | [] => None
         end.

Section serialImpl.
Context {A : Type} `{!Archive A}.

(** [n] words in a row; [ws] supplies the words when writing. *)
Fixpoint set_words (n : nat) (ws : list N) : Ser A (list N) :=
  match n with
  | O => mret []
  | S n' => w ← arch_set (hd 0%N ws);
            ws' ← set_words n' (tl ws);
            mret (w :: ws')
  end.

(** One slot: a presence word, then for a held object its tag, the
    number of words of its state, and the words. *)
Definition setSharedPtrObj (o : option SerializationIface) : Ser A (option SerializationIface) :=
  present ← arch_set (match o with Some _ => 1 | None => 0 end)%N;
  if (present =? 0)%N then mret None
  else
    tag ← arch_set (from_option getSerializationTag 0%N o);
    n ← arch_set (N.of_nat (length (from_option content [] o)));
    ws ← set_words (N.to_nat n) (from_option content [] o);
    mret (Some {| getSerializationTag := tag; content := ws |}).

Fixpoint set_slots (n : nat) (l : Argument) : Ser A Argument :=
  match n with
  | O => mret []
  | S n' => o ← setSharedPtrObj (mjoin (head l));
            l' ← set_slots n' (tl l);
            mret (o :: l')
  end.

(** Modelled from the spec: [Argument::serialImpl<Archive, onDeserialize>],
    the base routine that archives the slot collection: the number of
    slots, then the slots in order.  On deserialization the storage is
    rebuilt from the archive. *)
Definition Argument_serialImpl (onDeserialize : bool) (self : Argument) : Ser A Argument :=
  let storage := if onDeserialize then [] else self in
  n ← arch_set (N.of_nat (length storage));
  set_slots (N.to_nat n) storage.

(** Modelled from the spec: [daal::algorithms::Result::serialImpl] and
    [daal::algorithms::PartialResult::serialImpl] archive the slot
    collection they inherit and have no state of their own. *)
Definition Result_serialImpl (onDeserialize : bool) (self : Argument) : Ser A Argument :=
  Argument_serialImpl onDeserialize self.

Definition PartialResult_serialImpl (onDeserialize : bool) (self : Argument) : Ser A Argument :=
  Argument_serialImpl onDeserialize self.

End serialImpl.

(** The words a slot collection is archived as. *)
Definition encode_obj (o : option SerializationIface) : list N :=
  match o with
  | None => [0%N]
  | Some x => 1%N :: getSerializationTag x :: N.of_nat (length (content x)) :: content x
  end.

Definition encode_slots (l : Argument) : list N := concat (encode_obj <$> l).

Definition encode (l : Argument) : list N := N.of_nat (length l) :: encode_slots l.

(** ** Writing appends the encoding, reading consumes it *)

Ltac ser := unfold mbind, mret, Ser_bind, Ser_ret, arch_set,
              InputDataArchive_set, OutputDataArchive_set; simpl.

Lemma set_words_write (ws : list N) (a : InputDataArchive) :
  set_words (length ws) ws a = Some (ws, {| written := written a ++ ws |}).
Proof.
  revert a. induction ws as [|w ws IH]; intros [out]; simpl.
  - ser. by rewrite app_nil_r.
  - ser. rewrite IH. simpl. by rewrite <- app_assoc.
Qed.

Lemma set_words_read (ws junk rest : list N) :
  set_words (length ws) junk {| unread := ws ++ rest |} =
  Some (ws, {| unread := rest |}).
Proof.
  revert junk. induction ws as [|w ws IH]; intros junk; simpl; [done|].
  ser. by rewrite IH.
Qed.

Lemma setSharedPtrObj_write (o : option SerializationIface) (a : InputDataArchive) :
  setSharedPtrObj o a = Some (o, {| written := written a ++ encode_obj o |}).
Proof.
  destruct a as [out], o as [[tag ws]|]; unfold setSharedPtrObj; ser; [|done].
  rewrite Nat2N.id, set_words_write. simpl.
  by rewrite <- !app_assoc.
Qed.

Lemma setSharedPtrObj_read (o junk : option SerializationIface) (rest : list N) :
  setSharedPtrObj junk {| unread := encode_obj o ++ rest |} =
  Some (o, {| unread := rest |}).
Proof.
  destruct o as [[tag ws]|]; unfold setSharedPtrObj; ser; [|done].
  by rewrite Nat2N.id, set_words_read.
Qed.

Lemma set_slots_write (l : Argument) (a : InputDataArchive) :
  set_slots (length l) l a =
  Some (l, {| written := written a ++ encode_slots l |}).
Proof.
  revert a. induction l as [|o l IH]; intros [out]; simpl.
  - ser. unfold encode_slots. simpl. by rewrite app_nil_r.
  - ser. rewrite setSharedPtrObj_write. simpl. rewrite IH. simpl.
    unfold encode_slots. simpl. by rewrite <- app_assoc.
Qed.

Lemma set_slots_read (l junk : Argument) (rest : list N) :
  set_slots (length l) junk {| unread := encode_slots l ++ rest |} =
  Some (l, {| unread := rest |}).
Proof.
  revert junk. induction l as [|o l IH]; intros junk; simpl; [done|].
  ser. unfold encode_slots. simpl. rewrite <- app_assoc.
  rewrite setSharedPtrObj_read. by rewrite IH.
Qed.

Lemma Argument_serialImpl_write (l : Argument) (a : InputDataArchive) :
  Argument_serialImpl false l a =
  Some (l, {| written := written a ++ encode l |}).
Proof.
  unfold Argument_serialImpl. ser. rewrite Nat2N.id, set_slots_write. simpl.
  unfold encode. by rewrite <- app_assoc.
Qed.

Lemma Argument_serialImpl_read (l junk : Argument) (rest : list N) :
  Argument_serialImpl true junk {| unread := encode l ++ rest |} =
  Some (l, {| unread := rest |}).
Proof.
  unfold Argument_serialImpl, encode. ser. by rewrite Nat2N.id, set_slots_read.
Qed.

End algorithms.

(** * regression::training *)
Module regression_training.
Import algorithms.

(** [enum InputId { data, dependentVariables, lastInputId = dependentVariables }] *)
Inductive InputId := data | dependentVariables.
Definition lastInputId : InputId := dependentVariables.

(** [enum ResultId { model, lastResultId = model }] *)
Inductive ResultId : Set := model.
Definition lastResultId : ResultId := model.

Definition InputId_value (id : InputId) : nat :=
  match id with data => 0 | dependentVariables => 1 end.

Definition ResultId_value (id : ResultId) : nat :=
  match id with model => 0 end.

#[global] Instance InputId_eq_dec : EqDecision InputId.
Proof. solve_decision. Defined.
#[global] Instance InputId_countable : Countable InputId.
Proof.
  refine (inj_countable' InputId_value
            (λ n, match n with 0%nat => data | _ => dependentVariables end) _).
  by intros [].
Defined.

(** The part of a [data_management::NumericTable] that validation reads. *)
Record NumericTable := { getNumberOfRows : N; getNumberOfColumns : N }.

(** [class Input : public daal::algorithms::Input], seen through its typed
    accessors [get(InputId)] and [set(InputId, value)]. *)
Record Input := { in_slots : gmap InputId NumericTable }.

Definition Input_get (input : Input) (id : InputId) : option NumericTable :=
  in_slots input !! id.

Definition Input_set (id : InputId) (t : option NumericTable) (input : Input) : Input :=
  {| in_slots := match t with
                 | Some x => <[id := x]> (in_slots input)
                 | None => delete id (in_slots input)
                 end |}.

(** [daal::algorithms::Parameter], the base parameter, has no field that
    regression training reads. *)
Record Parameter_ : Set := new_Parameter { }.

(** [class Result : public daal::algorithms::Result] and
    [class PartialResult : public daal::algorithms::PartialResult] add no
    member to their base; each is its base subobject, as a type of its
    own. *)
Record Result := { Result_base : Argument }.
Record PartialResult := { PartialResult_base : Argument }.

(** [Result(size_t nElements = 0)], [PartialResult(size_t nElements = 0)] *)
Definition new_Result (nElements : option nat) : Result :=
  {| Result_base := new_Argument (default 0%nat nElements) |}.
Definition new_PartialResult (nElements : option nat) : PartialResult :=
  {| PartialResult_base := new_Argument (default 0%nat nElements) |}.

(** [regression::ModelPtr Result::get(ResultId id) const] *)
Definition Result_get (r : Result) (id : ResultId) : option SerializationIface :=
  Argument_get (Result_base r) (ResultId_value id).

(** ** Validation *)

(** Modelled from the spec: [Input::check(par, method)] is only declared
    in the header.  It verifies that the required slots are present
    (StructuralError) and that the row count of [data] equals that of
    [dependentVariables] (ShapeMismatchError), and collects the findings
    in one status. *)
Definition Input_check (input : Input) (par : Parameter_) (method : Z) : Status :=
  let s := Status_ok in
  let s := match Input_get input data with
           | None => add_fatal StructuralError s
           | Some _ => s
           end in
  let s := match Input_get input dependentVariables with
           | None => add_fatal StructuralError s
           | Some _ => s
           end in
  match Input_get input data, Input_get input dependentVariables with
  | Some x, Some y =>
      if decide (getNumberOfRows x = getNumberOfRows y) then s
      else add_fatal ShapeMismatchError s
  | _, _ => s
  end.

(** What [Result::check] is called on: the result itself and the two
    objects it receives by pointer. *)
Record entities := { the_result : Result; the_input : Input; the_parameter : Parameter_ }.

(** A member function that runs on these entities. *)
Definition Check (X : Type) : Type := entities → X * entities.

#[global] Instance Check_ret : MRet Check := λ X x w, (x, w).
#[global] Instance Check_bind : MBind Check := λ X Y k m w,
  let '(x, w') := m w in k x w'.

Definition read {X} (f : entities → X) : Check X := λ w, (f w, w).

(** Modelled from the spec: [Result::check(input, par, method)] is only
    declared in the header.  It confirms the structural integrity of the
    result, the presence of the model under [model], and mutates none of
    the entities it is given. *)
Definition Result_check (method : Z) : Check Status :=
  r ← read the_result;
  _ ← read the_input;
  _ ← read the_parameter;
  mret (match Result_get r model with
        | None => add_fatal StructuralError Status_ok
        | Some _ => Status_ok
        end).

(** ** Serialization *)

Section serialImpl.
Context {A : Type} `{!Archive A}.

(** [template<typename Archive, bool onDeserialize>
     void Result::serialImpl(Archive *arch)] *)
Definition Result_serialImpl (onDeserialize : bool) (self : Result) : Ser A Result :=
  base ← algorithms.Result_serialImpl onDeserialize (Result_base self);
  mret {| Result_base := base |}.

(** [template<typename Archive, bool onDeserialize>
     void PartialResult::serialImpl(Archive *arch)] *)
Definition PartialResult_serialImpl (onDeserialize : bool) (self : PartialResult) : Ser A PartialResult :=
  base ← algorithms.PartialResult_serialImpl onDeserialize (PartialResult_base self);
  mret {| PartialResult_base := base |}.

End serialImpl.

(** [void serializeImpl(data_management::InputDataArchive *arch)] *)
Definition Result_serializeImpl (self : Result) : Ser InputDataArchive Result :=
  Result_serialImpl false self.

(** [void deserializeImpl(data_management::OutputDataArchive *arch)] *)
Definition Result_deserializeImpl (self : Result) : Ser OutputDataArchive Result :=
  Result_serialImpl true self.

Definition PartialResult_serializeImpl (self : PartialResult) : Ser InputDataArchive PartialResult :=
  PartialResult_serialImpl false self.

Definition PartialResult_deserializeImpl (self : PartialResult) : Ser OutputDataArchive PartialResult :=
  PartialResult_serialImpl true self.

Section tags.

(** The serialization tags of the two classes are fixed outside the
    header. *)
Variables Result_tag PartialResult_tag : N.

(** Modelled from the spec: serialization of an object writes the stable
    tag of its type and then runs [serializeImpl]; deserialization checks
    the tag (a mismatch or a truncated stream is a SerializationError,
    [None]), default-constructs the object and runs [deserializeImpl]. *)
Definition serialize_with {T} (tag : N) (impl : T → Ser InputDataArchive T) (x : T) : list N :=
  match impl x {| written := [tag] |} with
  | Some (_, arch) => written arch
  | None => []
  end.

Definition deserialize_with {T} (tag : N) (impl : T → Ser OutputDataArchive T)
    (fresh : T) (stream : list N) : option T :=
  match stream with
  | t :: rest => if decide (t = tag)
                 then fst <$> impl fresh {| unread := rest |}
                 else None
  | [] => None
  end.

Definition serialize_Result : Result → list N :=
  serialize_with Result_tag Result_serializeImpl.
Definition deserialize_Result : list N → option Result :=
  deserialize_with Result_tag Result_deserializeImpl (new_Result None).

Definition serialize_PartialResult : PartialResult → list N :=
  serialize_with PartialResult_tag PartialResult_serializeImpl.
Definition deserialize_PartialResult : list N → option PartialResult :=
  deserialize_with PartialResult_tag PartialResult_deserializeImpl (new_PartialResult None).

(** The derived routines add nothing to what the base routine writes. *)
Lemma serialize_Result_words (r : Result) :
  serialize_Result r = Result_tag :: encode (Result_base r).
Proof.
  unfold serialize_Result, serialize_with, Result_serializeImpl,
    Result_serialImpl, algorithms.Result_serialImpl.
  unfold mbind at 1. unfold Ser_bind. by rewrite Argument_serialImpl_write.
Qed.

Lemma serialize_PartialResult_words (p : PartialResult) :
  serialize_PartialResult p = PartialResult_tag :: encode (PartialResult_base p).
Proof.
  unfold serialize_PartialResult, serialize_with, PartialResult_serializeImpl,
    PartialResult_serialImpl, algorithms.PartialResult_serialImpl.
  unfold mbind at 1. unfold Ser_bind. by rewrite Argument_serialImpl_write.
Qed.

(** C6 (serialization round trip): for every regression training [Result]
    and [PartialResult], deserializing what serialization wrote gives the
    object back, equal in every slot; and serialization leaves the archive
    exactly as the serialization routine of the base class leaves it, with
    no field of the algorithm after the slot collection. *)
Theorem serialization_round_trip :
  (∀ r : Result, deserialize_Result (serialize_Result r) = Some r) ∧
  (∀ p : PartialResult,
     deserialize_PartialResult (serialize_PartialResult p) = Some p) ∧
  (∀ (r : Result) (arch : InputDataArchive),
     snd <$> Result_serializeImpl r arch =
     snd <$> algorithms.Result_serialImpl false (Result_base r) arch) ∧
  (∀ (p : PartialResult) (arch : InputDataArchive),
     snd <$> PartialResult_serializeImpl p arch =
     snd <$> algorithms.PartialResult_serialImpl false (PartialResult_base p) arch).
Proof.
  repeat split.
  - intros [l]. rewrite serialize_Result_words. simpl.
    unfold deserialize_Result, deserialize_with. rewrite decide_True by done.
    unfold Result_deserializeImpl, Result_serialImpl,
      algorithms.Result_serialImpl.
    unfold mbind at 1. unfold Ser_bind.
    rewrite <- (app_nil_r (encode l)).
    by rewrite Argument_serialImpl_read.
  - intros [l]. rewrite serialize_PartialResult_words. simpl.
    unfold deserialize_PartialResult, deserialize_with.
    rewrite decide_True by done.
    unfold PartialResult_deserializeImpl, PartialResult_serialImpl,
      algorithms.PartialResult_serialImpl.
    unfold mbind at 1. unfold Ser_bind.
    rewrite <- (app_nil_r (encode l)).
    by rewrite Argument_serialImpl_read.
  - intros [l] arch.
    unfold Result_serializeImpl, Result_serialImpl,
      algorithms.Result_serialImpl.
    unfold mbind at 1. unfold Ser_bind.
    by rewrite Argument_serialImpl_write.
  - intros [l] arch.
    unfold PartialResult_serializeImpl, PartialResult_serialImpl,
      algorithms.PartialResult_serialImpl.
    unfold mbind at 1. unfold Ser_bind.
    by rewrite Argument_serialImpl_write.
Qed.

End tags.

(** C7 (validation of row counts): for every input whose [data] table has
    10 rows, [check] returns a status with the fatal error
    ShapeMismatchError when [dependentVariables] has 8 rows, and a status
    with no fatal error when it has 10 rows. *)
Theorem Input_check_row_counts (input : Input) (par : Parameter_) (method : Z)
    (x y : NumericTable) :
  Input_get input data = Some x →
  Input_get input dependentVariables = Some y →
  getNumberOfRows x = 10%N →
  (getNumberOfRows y = 8%N →
   fatal_error (Input_check input par method) = Some ShapeMismatchError ∧
   isFatal (Input_check input par method) = true) ∧
  (getNumberOfRows y = 10%N →
   fatal_error (Input_check input par method) = None ∧
   isFatal (Input_check input par method) = false).
Proof.
  intros Hx Hy Hrows. unfold Input_check, isFatal. rewrite Hx, Hy, Hrows.
  split; intros ->; by case_decide.
Qed.

(** C8 (validation is read-only): [Result::check] returns with the result,
    the input and the parameter exactly as they were. *)
Theorem Result_check_mutates_nothing (method : Z) (w : entities) :
  snd (Result_check method w) = w ∧
  the_result (snd (Result_check method w)) = the_result w ∧
  the_input (snd (Result_check method w)) = the_input w ∧
  the_parameter (snd (Result_check method w)) = the_parameter w.
Proof. by repeat split. Qed.

(** A 10-row data table with an 8-row table of dependent variables. *)
Definition rows_10_8 : Input :=
  Input_set dependentVariables (Some {| getNumberOfRows := 8; getNumberOfColumns := 1 |})
    (Input_set data (Some {| getNumberOfRows := 10; getNumberOfColumns := 4 |})
       {| in_slots := ∅ |}).

Definition rows_10_10 : Input :=
  Input_set dependentVariables (Some {| getNumberOfRows := 10; getNumberOfColumns := 1 |})
    (Input_set data (Some {| getNumberOfRows := 10; getNumberOfColumns := 4 |})
       {| in_slots := ∅ |}).

Example check_rows_10_8 :
  Input_check rows_10_8 new_Parameter 0 =
  {| fatal_error := Some ShapeMismatchError; warnings := [] |}.
Proof. by vm_compute. Qed.

Example check_rows_10_10 : Input_check rows_10_10 new_Parameter 0 = Status_ok.
Proof. by vm_compute. Qed.

Example check_without_data :
  Input_check {| in_slots := ∅ |} new_Parameter 0 =
  {| fatal_error := Some StructuralError; warnings := [] |}.
Proof. by vm_compute. Qed.

Lemma Input_check_row_counts_witness :
  (8%N = 8%N →
   fatal_error (Input_check rows_10_8 new_Parameter 0) = Some ShapeMismatchError ∧
   isFatal (Input_check rows_10_8 new_Parameter 0) = true) ∧
  (8%N = 10%N →
   fatal_error (Input_check rows_10_8 new_Parameter 0) = None ∧
   isFatal (Input_check rows_10_8 new_Parameter 0) = false).
Proof.
  apply (Input_check_row_counts rows_10_8 new_Parameter 0
           {| getNumberOfRows := 10; getNumberOfColumns := 4 |}
           {| getNumberOfRows := 8; getNumberOfColumns := 1 |});
    reflexivity.
Defined.

(** X8 (archives compose): a [Result] and a [PartialResult] serialized
    one after the other into the same archive leave both objects
    unchanged and only append words to the archive; the two
    [deserializeImpl] calls, run in the same order on those words, restore
    both objects whatever the objects they are run on held before, and
    leave the rest of the stream unread. *)
Theorem serializeImpl_sequence (r fresh_r : Result) (p fresh_p : PartialResult)
    (arch : InputDataArchive) (rest : list N) :
  ∃ arch1 arch2 w b1,
    Result_serializeImpl r arch = Some (r, arch1) ∧
    PartialResult_serializeImpl p arch1 = Some (p, arch2) ∧
    written arch2 = written arch ++ w ∧
    Result_deserializeImpl fresh_r {| unread := w ++ rest |} = Some (r, b1) ∧
    PartialResult_deserializeImpl fresh_p b1 = Some (p, {| unread := rest |}).
Proof.
  destruct r as [l], p as [k], fresh_r as [l0], fresh_p as [k0].
  exists {| written := written arch ++ encode l |},
         {| written := (written arch ++ encode l) ++ encode k |},
         (encode l ++ encode k), {| unread := encode k ++ rest |}.
  unfold Result_serializeImpl, PartialResult_serializeImpl,
    Result_deserializeImpl, PartialResult_deserializeImpl,
    Result_serialImpl, PartialResult_serialImpl,
    algorithms.Result_serialImpl, algorithms.PartialResult_serialImpl.
  unfold mbind, Ser_bind.
  rewrite !Argument_serialImpl_write. cbv beta iota.
  rewrite <- (app_assoc (encode l)), !Argument_serialImpl_read.
  cbn [Result_base PartialResult_base written].
  repeat split. by rewrite <- app_assoc.
Qed.

End regression_training.

(** * The identifier enums as they are declared *)
Module identifiers.

(** An enumerator is declared with or without an initializer; the
    initializers of these headers are a literal or an earlier enumerator
    of the same enum. *)
Inductive initializer := literal (z : Z) | same_as (name : string).

Abbreviation enum := (list (string * option initializer)).

(** Values as C++ assigns them: an initializer gives the value; without
    one the value is 0 for the first enumerator and one more than the
    previous value otherwise. *)
Fixpoint values_from (next : Z) (seen : list (string * Z)) (e : enum) : list (string * Z) :=
  match e with
  | [] => []
  | (x, i) :: e' =>
      let v := match i with
               | None => next
               | Some (literal z) => z
               | Some (same_as y) =>
                   default 0%Z (snd <$> find (λ p, String.eqb (fst p) y) seen)
               end in
      (x, v) :: values_from (v + 1) ((x, v) :: seen) e'
  end.

Definition values (e : enum) : list (string * Z) := values_from 0 [] e.

(** [enum InputId] of [regression::training] *)
Definition InputId : enum :=
  [("data", None); ("dependentVariables", None);
   ("lastInputId", Some (same_as "dependentVariables"))]%string.

(** [enum ResultId] of [regression::training] *)
Definition ResultId : enum :=
  [("model", None); ("lastResultId", Some (same_as "model"))]%string.

(** [enum QualityMetricId] of [multi_class_classifier::quality_metric_set] *)
Definition QualityMetricId : enum :=
  [("confusionMatrix", Some (literal 0))]%string.

(** The sentinel is the enumerator named [last...]; the others are the
    identifiers proper. *)
Definition is_sentinel (p : string * Z) : bool := String.prefix "last" (fst p).

Definition sentinel (e : enum) : option Z :=
  snd <$> find is_sentinel (values e).

Definition identifiers (e : enum) : list Z :=
  snd <$> filter (λ p, is_sentinel p = false) (values e).

(** Densely packed: the identifiers are 0, 1, ..., n - 1 in order. *)
Definition dense (e : enum) : Prop :=
  identifiers e = seqZ 0 (Z.of_nat (length (identifiers e))).

(** The sentinel is there and equals the largest identifier. *)
Definition sentinel_is_max (e : enum) : Prop :=
  ∃ s, sentinel e = Some s ∧ s ∈ identifiers e ∧ ∀ v, v ∈ identifiers e → (v ≤ s)%Z.

Example InputId_values :
  values InputId = [("data", 0); ("dependentVariables", 1); ("lastInputId", 1)]%string%Z.
Proof. reflexivity. Qed.

Example ResultId_values :
  values ResultId = [("model", 0); ("lastResultId", 0)]%string%Z.
Proof. reflexivity. Qed.

Example QualityMetricId_values :
  values QualityMetricId = [("confusionMatrix", 0)]%string%Z.
Proof. reflexivity. Qed.

(** The values agree with the conversions used on the slot collections. *)
Lemma values_agree :
  identifiers InputId =
    Z.of_nat <$> [regression_training.InputId_value regression_training.data;
                  regression_training.InputId_value regression_training.dependentVariables] ∧
  identifiers ResultId =
    [Z.of_nat (regression_training.ResultId_value regression_training.model)] ∧
  identifiers QualityMetricId =
    [Z.of_N (multi_class_classifier_quality_metric_set.QualityMetricId_value
               multi_class_classifier_quality_metric_set.confusionMatrix)].
Proof. by vm_compute. Qed.

(** C5, refuted as stated: [QualityMetricId] declares no [last...]
    sentinel, so not every identifier enum carries one. *)
Lemma QualityMetricId_has_no_sentinel :
  sentinel QualityMetricId = None ∧
  ¬ (∀ e, e ∈ [InputId; ResultId; QualityMetricId] → dense e ∧ sentinel_is_max e).
Proof.
  split; [reflexivity|].
  intros H. specialize (H QualityMetricId).
  destruct H as [_ (s & Hs & _)].
  - do 2 apply list_elem_of_further. apply list_elem_of_here.
  - discriminate Hs.
Qed.

(** C5, as the headers have it: the three enums are closed lists of
    enumerators whose identifiers are densely packed from 0; [InputId]
    and [ResultId] carry the sentinels [lastInputId] and [lastResultId],
    equal to their largest identifier; [QualityMetricId] has the single
    identifier [confusionMatrix = 0] and no sentinel. *)
Theorem identifier_enums :
  dense InputId ∧ sentinel_is_max InputId ∧ sentinel InputId = Some 1%Z ∧
  dense ResultId ∧ sentinel_is_max ResultId ∧ sentinel ResultId = Some 0%Z ∧
  dense QualityMetricId ∧ identifiers QualityMetricId = [0%Z] ∧
  sentinel QualityMetricId = None.
Proof.
  repeat split; try reflexivity.
  - exists 1%Z. change (identifiers InputId) with [0%Z; 1%Z].
    split; [reflexivity|]. setoid_rewrite elem_of_cons.
    setoid_rewrite elem_of_cons. setoid_rewrite elem_of_nil.
    split; [tauto|lia].
  - exists 0%Z. change (identifiers ResultId) with [0%Z].
    split; [reflexivity|]. setoid_rewrite elem_of_cons.
    setoid_rewrite elem_of_nil. split; [tauto|lia].
Qed.

End identifiers.
